(** * endgame: the IAM role resource kind (exposure_via_resource_policies/iam.py)

    A shallow embedding of [IAMRole] (one role: read and write of its trust
    policy) and [IAMRoles] (the catalog: paginated enumeration of roles),
    together with the shared value objects and the policy document they use.

    Python values that come from the provider are kept as JSON-like values;
    a method is a computation over the heap of its receiver ([self] and the
    module logger) that either returns or raises. *)

From Stdlib Require Import String Ascii List Bool ZArith Arith Lia.
Import ListNotations.
Local Open Scope string_scope.
Local Open Scope list_scope.
Local Set Warnings "-register-all".

(* ===================================================================== *)
(** * Python values, exceptions and computations *)
(* ===================================================================== *)

Module Py.

(** The values boto3 hands back (parsed JSON) and the policy documents
    passed around: [None], booleans, integers, strings, lists, and dicts
    with string keys.  A dict is kept as an association list; [lookup]
    takes the first binding of a key. *)
Inductive pyval : Type :=
| PNone
| PBool (b : bool)
| PInt (z : Z)
| PStr (s : string)
| PList (l : list pyval)
| PDict (d : list (string * pyval)).

Definition dict := list (string * pyval).

Fixpoint lookup (k : string) (d : dict) : option pyval :=
  match d with
  | [] => None
  | (k', v) :: d' => if String.eqb k k' then Some v else lookup k d'
  end.

(** The exceptions the modelled code can meet.  [NoSuchEntityException]
    is the IAM client's subclass of botocore's [ClientError];
    [ClientError] stands for every other client error; both carry the
    text [str(error)] gives.  [OtherException] is anything that is not a
    [ClientError] (a connection failure, a parameter validation error). *)
Inductive exn : Type :=
| NoSuchEntityException (text : string)
| ClientError (text : string)
| AttributeError
| KeyError
| TypeError
| OtherException (text : string).

(** [isinstance(e, self.client.exceptions.NoSuchEntityException)] *)
Definition is_NoSuchEntityException (e : exn) : bool :=
  match e with NoSuchEntityException _ => true | _ => false end.

(** [isinstance(e, botocore.exceptions.ClientError)] *)
Definition is_ClientError (e : exn) : bool :=
  match e with
  | NoSuchEntityException _ | ClientError _ => true
  | _ => false
  end.

(** [str(error)]: the text of a client error.  The modelled code takes it
    of client errors only; the built-in classes answer with their name. *)
Definition str (e : exn) : string :=
  match e with
  | NoSuchEntityException text | ClientError text | OtherException text => text
  | AttributeError => "AttributeError"
  | KeyError => "KeyError"
  | TypeError => "TypeError"
  end.

Inductive outcome (A : Type) : Type :=
| Return (a : A)
| Raise (e : exn).
Arguments Return {A} a.
Arguments Raise {A} e.

(** A computation over a state [St]: the state survives a raise, as a
    Python object and the log do. *)
Definition M (St A : Type) : Type := St -> outcome A * St.

Definition ret {St A} (a : A) : M St A := fun s => (Return a, s).

Definition raise {St A} (e : exn) : M St A := fun s => (Raise e, s).

Definition bind {St A B} (c : M St A) (k : A -> M St B) : M St B :=
  fun s =>
    match c s with
    | (Return a, s') => k a s'
    | (Raise e, s') => (Raise e, s')
    end.

(** An expression that may raise, evaluated inside a computation. *)
Definition lift {St A} (o : outcome A) : M St A := fun s => (o, s).

(** [try: body  except ...:], the handlers given as a partial function:
    [None] means no clause matches and the exception goes on. *)
Definition try_except {St A} (body : M St A)
           (handlers : exn -> option (M St A)) : M St A :=
  fun s =>
    match body s with
    | (Return a, s') => (Return a, s')
    | (Raise e, s') =>
        match handlers e with
        | Some h => h s'
        | None => (Raise e, s')
        end
    end.

(** [for x in xs: acc = body(x, acc)]; [continue] is returning [acc]. *)
Fixpoint for_in {St A B} (xs : list A) (body : A -> B -> M St B) (acc : B)
  : M St B :=
  match xs with
  | [] => ret acc
  | x :: xs' => bind (body x acc) (for_in xs' body)
  end.

(** [v.get(k)]: a dict answers with the value or [None]; nothing else
    modelled here has a [get] attribute. *)
Definition get (v : pyval) (k : string) : outcome pyval :=
  match v with
  | PDict d => Return (match lookup k d with Some x => x | None => PNone end)
  | _ => Raise AttributeError
  end.

(** [v[k]] for a string key. *)
Definition getitem (v : pyval) (k : string) : outcome pyval :=
  match v with
  | PDict d => match lookup k d with Some x => Return x | None => Raise KeyError end
  | _ => Raise TypeError
  end.

(** The elements [for x in v] visits: those of a list, the keys of a
    dict, the characters of a string. *)
Definition iter (v : pyval) : outcome (list pyval) :=
  match v with
  | PList l => Return l
  | PDict d => Return (map (fun kv => PStr (fst kv)) d)
  | PStr s => Return (map (fun c => PStr (String c EmptyString)) (list_ascii_of_string s))
  | _ => Raise TypeError
  end.

(** [v.startswith(p)] *)
Definition startswith (v : pyval) (p : string) : outcome bool :=
  match v with
  | PStr s => Return (String.prefix p s)
  | _ => Raise AttributeError
  end.

End Py.
Import Py.

Declare Scope py_scope.
Delimit Scope py_scope with py.
Notation "x <- c ;; k" := (Py.bind c (fun x => k))
  (at level 61, c at next level, right associativity) : py_scope.
Notation "c ;;; k" := (Py.bind c (fun _ => k))
  (at level 61, right associativity) : py_scope.
Local Open Scope py_scope.

(* ===================================================================== *)
(** * The module logger and the heap of a method call *)
(* ===================================================================== *)

Module logging.

Inductive level : Type := DEBUG | INFO | WARNING | ERROR | CRITICAL.

Definition record : Type := (level * string)%type.

End logging.

(** What a method can read and write: its receiver and the records the
    module-level [logger] has emitted so far. *)
Record heap (Self : Type) : Type := mkHeap {
  self : Self;
  log : list logging.record
}.
Arguments mkHeap {Self} _ _.
Arguments self {Self} _.
Arguments log {Self} _.

Definition get_self {Self} : M (heap Self) Self :=
  fun h => (Return (self h), h).

Definition emit {Self} (lvl : logging.level) (msg : string) : M (heap Self) unit :=
  fun h => (Return tt, mkHeap (self h) (log h ++ [(lvl, msg)])).

Module logger.
Definition debug {Self} (msg : string) : M (heap Self) unit := emit logging.DEBUG msg.
Definition critical {Self} (msg : string) : M (heap Self) unit := emit logging.CRITICAL msg.
End logger.

(* ===================================================================== *)
(** * endgame.shared: constants, policy document, response records *)
(* ===================================================================== *)

Module constants.

(** Modelled from the spec: [constants.get_empty_policy] (endgame/shared/
    constants.py is not under src/).  The spec asks for a structurally
    valid empty document of the provider's shape: a version and an empty
    statement list. *)
Definition get_empty_policy : pyval :=
  PDict [("Version", PStr "2012-10-17"); ("Statement", PList [])].

End constants.

Module PolicyDocument.

(** A parsed access-control document: its statements, each kept as the
    provider gave it, and the kind's flags it was constructed with. *)
Record t : Type := mk {
  statements : list pyval;
  service : string;
  override_action : option string;
  include_resource_block : bool;
  override_resource_block : option string;
  override_account_id_instead_of_principal : bool
}.

(** Modelled from the spec: parsing of the source policy
    (endgame/shared/policy_document.py is not under src/).  A document
    built from an absent or unreadable policy is a structurally valid
    empty document: anything that is not an object with a statement list
    yields no statement. *)
Definition statements_of (policy : pyval) : list pyval :=
  match policy with
  | PDict d => match lookup "Statement" d with Some (PList l) => l | _ => [] end
  | _ => []
  end.

(** Modelled from the spec: [PolicyDocument.__init__], keeping the flags
    it is given. *)
Definition init (policy : pyval) (service : string)
           (override_action : option string) (include_resource_block : bool)
           (override_resource_block : option string)
           (override_account_id_instead_of_principal : bool) : t :=
  mk (statements_of policy) service override_action include_resource_block
     override_resource_block override_account_id_instead_of_principal.

(** Modelled from the spec: step 1 of grant injection, the principal: a
    principal block, or the bare identifier when the kind asks for it. *)
Definition evil_principal_block (pd : t) (evil_principal : string) : pyval :=
  if override_account_id_instead_of_principal pd
  then PStr evil_principal
  else PDict [("AWS", PStr evil_principal)].

(** Modelled from the spec: step 1, the action: the override action when
    set, else a wildcard over the kind's own service. *)
Definition granted_action (pd : t) : string :=
  match override_action pd with
  | Some a => a
  | None => service pd ++ ":*"
  end.

(** Modelled from the spec: steps 1 and 2, the new statement; the
    resource block naming [arn] is attached only if
    [include_resource_block]. *)
Definition evil_statement (pd : t) (evil_principal arn : string) : pyval :=
  PDict ([("Effect", PStr "Allow");
          ("Principal", evil_principal_block pd evil_principal);
          ("Action", PStr (granted_action pd))]
         ++ (if include_resource_block pd then [("Resource", PStr arn)] else [])).

(** Modelled from the spec: step 3, grant injection appends the new
    statement to the statement list. *)
Definition inject_grant (pd : t) (evil_principal arn : string) : t :=
  mk (statements pd ++ [evil_statement pd evil_principal arn])
     (service pd) (override_action pd) (include_resource_block pd)
     (override_resource_block pd) (override_account_id_instead_of_principal pd).

(** Modelled from the spec: step 4, the wire form of the document. *)
Definition json (pd : t) : pyval :=
  PDict [("Version", PStr "2012-10-17"); ("Statement", PList (statements pd))].

(** A statement carries a resource block when it has the key. *)
Definition resource_block (statement : pyval) : option pyval :=
  match statement with
  | PDict d => lookup "Resource" d
  | _ => None
  end.

Definition action (statement : pyval) : option pyval :=
  match statement with
  | PDict d => lookup "Action" d
  | _ => None
  end.

End PolicyDocument.

(** A structurally valid document on the wire: an object with a statement
    list. *)
Definition is_policy_object (j : pyval) : bool :=
  match j with
  | PDict d => match lookup "Statement" d with Some (PList _) => true | _ => false end
  | _ => false
  end.

Module ResponseGetRbp.
Record t : Type := mk {
  policy_document : PolicyDocument.t;
  success : bool
}.
End ResponseGetRbp.

Module ResponseMessage.
Record t : Type := mk {
  message : string;
  operation : string;
  success : bool;
  evil_principal : string;
  victim_resource_arn : string;
  original_policy : pyval;
  updated_policy : pyval;
  resource_type : string;
  resource_name : string;
  service : string
}.
End ResponseMessage.

Module ListResourcesResponse.
Record t : Type := mk {
  service : string;
  account_id : string;
  arn : pyval;
  region : string;
  resource_type : string;
  name : pyval
}.
End ListResourcesResponse.

(* ===================================================================== *)
(** * The provider: the boto3 IAM client *)
(* ===================================================================== *)

Module boto3.

(** The three calls the code makes.  [get_role] and
    [update_assume_role_policy] answer with the parsed response or raise;
    [list_roles_pages] is what iterating
    [get_paginator("list_roles").paginate()] yields, page by page. *)
Record client : Type := mkClient {
  get_role : string -> outcome pyval;
  update_assume_role_policy : string -> string -> outcome pyval;
  list_roles_pages : list pyval
}.

End boto3.

(* ===================================================================== *)
(** * exposure_via_resource_policies.common: the base classes *)
(* ===================================================================== *)

Module ResourceType.

(** The attributes of a resource instance. *)
Record t : Type := mk {
  service : string;
  resource_type : string;
  region : string;
  current_account_id : string;
  name : string;
  include_resource_block : bool;
  override_action : option string;
  override_resource_block : option string;
  override_account_id_instead_of_principal : bool;
  client : boto3.client;
  original_policy : pyval
}.

(** What the base initialiser supplies on its own: the values of the two
    flags a kind does not pass, and the policy as read that it retains as
    [original_policy]. *)
Record supplied : Type := mkSupplied {
  default_override_resource_block : option string;
  default_override_account_id_instead_of_principal : bool;
  policy_as_read : pyval
}.

(** Modelled from the spec: [ResourceType.__init__] (endgame/
    exposure_via_resource_policies/common.py is not under src/): the
    identity and the behavioural flags are stored as given at
    construction. *)
Definition init (base : supplied) (name resource_type service region : string)
           (client : boto3.client) (current_account_id : string)
           (include_resource_block : bool) (override_action : option string) : t :=
  mk service resource_type region current_account_id name
     include_resource_block override_action
     (default_override_resource_block base)
     (default_override_account_id_instead_of_principal base)
     client (policy_as_read base).

End ResourceType.

Module ResourceTypes.

Record t : Type := mk {
  client : boto3.client;
  current_account_id : string;
  region : string;
  service : string;
  resource_type : string
}.

End ResourceTypes.

(* ===================================================================== *)
(** * iam.py: class IAMRole *)
(* ===================================================================== *)

Module IAMRole.

Import ResourceType.

Definition t : Type := ResourceType.t.

(** [IAMRole.__init__]: the kind is fixed, the resource block is left out
    and the action is [sts:AssumeRole]. *)
Definition init (base : ResourceType.supplied) (name region : string)
           (client : boto3.client) (current_account_id : string) : t :=
  let service := "iam" in
  let resource_type := "role" in
  let include_resource_block := false in
  let override_action := Some "sts:AssumeRole" in
  ResourceType.init base name resource_type service region client
                    current_account_id include_resource_block override_action.

(** The [arn] property. *)
Definition arn (this : t) : string :=
  "arn:aws:" ++ service this ++ "::" ++ current_account_id this ++ ":"
             ++ resource_type this ++ "/" ++ name this.

(** [IAMRole._get_rbp] *)
Definition _get_rbp : M (heap t) ResponseGetRbp.t :=
  this <- get_self ;;
  logger.debug ("Getting resource policy for " ++ arn this) ;;;
  ps <- try_except
          (response <- lift (boto3.get_role (client this) (name this)) ;;
           role <- lift (Py.get response "Role") ;;
           policy <- lift (Py.get role "AssumeRolePolicyDocument") ;;
           ret (policy, true))
          (fun e =>
             if is_NoSuchEntityException e then
               Some (logger.critical
                       ("There is no resource with the name " ++ name this) ;;;
                     ret (constants.get_empty_policy, false))
             else if is_ClientError e then
               Some (ret (constants.get_empty_policy, false))
             else None) ;;
  let policy_document :=
    PolicyDocument.init (fst ps) (service this) (override_action this)
                        (include_resource_block this)
                        (override_resource_block this)
                        (override_account_id_instead_of_principal this) in
  ret (ResponseGetRbp.mk policy_document (snd ps)).

Section SetRbp.

(** [json.dumps], Python's serialiser; the code only hands its result to
    the provider. *)
Variable json_dumps : pyval -> string.

(** [IAMRole.set_rbp] *)
Definition set_rbp (evil_policy : pyval) : M (heap t) ResponseMessage.t :=
  this <- get_self ;;
  logger.debug ("Setting resource policy for " ++ arn this) ;;;
  let new_policy := json_dumps evil_policy in
  ms <- try_except
          (_ <- lift (boto3.update_assume_role_policy
                        (client this) (name this) new_policy) ;;
           ret ("success", true))
          (fun error =>
             if is_ClientError error then
               Some (let message := Py.str error in
                     logger.critical (Py.str error) ;;;
                     ret (message, false))
             else None) ;;
  ret (ResponseMessage.mk (fst ms) "set_rbp" (snd ms) ""
         (arn this) (original_policy this) evil_policy
         (resource_type this) (name this) (service this)).

End SetRbp.

End IAMRole.

(* ===================================================================== *)
(** * iam.py: class IAMRoles *)
(* ===================================================================== *)

Module IAMRoles.

Import ResourceTypes.

Definition t : Type := ResourceTypes.t.

(** [IAMRoles.__init__].  Modelled from the spec: [ResourceTypes.__init__]
    (common.py is not under src/) keeps the client, the account and the
    region it is given. *)
Definition init (client : boto3.client) (current_account_id region : string) : t :=
  ResourceTypes.mk client current_account_id region "iam" "role".

(** The body of the inner loop, for one listed role. *)
Definition visit_role (this : t) (role : pyval)
           (resources : list ListResourcesResponse.t)
  : M (heap t) (list ListResourcesResponse.t) :=
  path <- lift (Py.get role "Path") ;;
  arn <- lift (Py.get role "Arn") ;;
  name <- lift (Py.get role "RoleName") ;;
  service_linked <- lift (Py.startswith path "/aws-service-role/") ;;
  if (service_linked : bool) then ret resources
  else
    let list_resources_response :=
      ListResourcesResponse.mk (service this) (current_account_id this) arn
                               (region this) (resource_type this) name in
    ret (resources ++ [list_resources_response]).

(** The body of the outer loop, for one page. *)
Definition visit_page (this : t) (page : pyval)
           (resources : list ListResourcesResponse.t)
  : M (heap t) (list ListResourcesResponse.t) :=
  roles <- lift (Py.getitem page "Roles") ;;
  roles_seq <- lift (Py.iter roles) ;;
  for_in roles_seq (visit_role this) resources.

(** The [IAMRoles.resources] property. *)
Definition resources : M (heap t) (list ListResourcesResponse.t) :=
  this <- get_self ;;
  let resources := [] in
  let page_iterator := boto3.list_roles_pages (client this) in
  for_in page_iterator (visit_page this) resources.

End IAMRoles.

(* ===================================================================== *)
(** * The vocabulary of the properties *)
(* ===================================================================== *)

(** The roles a page lists. *)
Definition page_roles (page : pyval) : list pyval :=
  match Py.getitem page "Roles" with
  | Return (PList l) => l
  | _ => []
  end.

(** All listed roles, in the order the pages give them. *)
Definition listing (pages : list pyval) : list pyval :=
  flat_map page_roles pages.

(** The path of a listed entry, when the entry is an object whose [Path]
    is a string. *)
Definition role_path (role : pyval) : option string :=
  match role with
  | PDict d => match lookup "Path" d with Some (PStr p) => Some p | _ => None end
  | _ => None
  end.

Definition has_path (role : pyval) : bool :=
  match role_path role with Some _ => true | None => false end.

(** A page as the provider sends it: an object whose [Roles] is a list. *)
Definition is_page (page : pyval) : bool :=
  match Py.getitem page "Roles" with
  | Return (PList _) => true
  | _ => false
  end.

(** Pages the provider shaped as pages and whose entries all carry a
    string path. *)
Definition well_formed (pages : list pyval) : bool :=
  forallb (fun page => is_page page && forallb has_path (page_roles page)) pages.

(** The kind's filter: a service-linked role, by its path prefix. *)
Definition service_linked (role : pyval) : bool :=
  match role_path role with
  | Some p => String.prefix "/aws-service-role/" p
  | None => false
  end.

Definition kept (roles : list pyval) : list pyval :=
  filter (fun role => negb (service_linked role)) roles.

(** A field of an entry as [role.get] answers: the value, or [None] when
    the key is missing. *)
Definition field (role : pyval) (k : string) : pyval :=
  match Py.get role k with
  | Return v => v
  | Raise _ => PNone
  end.

(** The record the catalog [this] issues for a listed entry. *)
Definition listed_as (this : IAMRoles.t) (role : pyval) : ListResourcesResponse.t :=
  ListResourcesResponse.mk
    (ResourceTypes.service this) (ResourceTypes.current_account_id this)
    (field role "Arn") (ResourceTypes.region this)
    (ResourceTypes.resource_type this) (field role "RoleName").

(** The records of a list all come from the catalog [this]: each is the
    record of some listed entry. *)
Definition issued_by (this : IAMRoles.t) (out : list ListResourcesResponse.t) : Prop :=
  Forall (fun r => exists role, r = listed_as this role) out.

(** The document [_get_rbp] builds for the instance [this] from the
    policy it settled on. *)
Definition document_for (this : IAMRole.t) (policy : pyval) : PolicyDocument.t :=
  PolicyDocument.init policy (ResourceType.service this)
                      (ResourceType.override_action this)
                      (ResourceType.include_resource_block this)
                      (ResourceType.override_resource_block this)
                      (ResourceType.override_account_id_instead_of_principal this).

(** The heap after the logger took more records. *)
Definition logged {Self} (h : heap Self) (records : list logging.record) : heap Self :=
  mkHeap (self h) (log h ++ records).

(** The pages the catalog of a heap lists. *)
Definition pages_of (h : heap IAMRoles.t) : list pyval :=
  boto3.list_roles_pages (ResourceTypes.client (self h)).

(** The same catalog over a provider that cuts the listing into other
    pages. *)
Definition repaged (h : heap IAMRoles.t) (pages : list pyval) : heap IAMRoles.t :=
  let this := self h in
  let c := ResourceTypes.client this in
  mkHeap
    (ResourceTypes.mk
       (boto3.mkClient (boto3.get_role c) (boto3.update_assume_role_policy c) pages)
       (ResourceTypes.current_account_id this) (ResourceTypes.region this)
       (ResourceTypes.service this) (ResourceTypes.resource_type this))
    (log h).

(** A caller's use of one role instance. *)
Inductive call : Type :=
| get_policy
| set_policy (evil_policy : pyval).

Definition run_call (json_dumps : pyval -> string) (c : call)
           (h : heap IAMRole.t) : heap IAMRole.t :=
  match c with
  | get_policy => snd (IAMRole._get_rbp h)
  | set_policy evil_policy => snd (IAMRole.set_rbp json_dumps evil_policy h)
  end.

Definition run_calls (json_dumps : pyval -> string) (cs : list call)
           (h : heap IAMRole.t) : heap IAMRole.t :=
  fold_left (fun h c => run_call json_dumps c h) cs h.

(** The behavioural flags of an instance. *)
Definition flags (this : IAMRole.t)
  : bool * option string * option string * bool :=
  (ResourceType.include_resource_block this,
   ResourceType.override_action this,
   ResourceType.override_resource_block this,
   ResourceType.override_account_id_instead_of_principal this).

Definition document_flags (pd : PolicyDocument.t)
  : bool * option string * option string * bool :=
  (PolicyDocument.include_resource_block pd,
   PolicyDocument.override_action pd,
   PolicyDocument.override_resource_block pd,
   PolicyDocument.override_account_id_instead_of_principal pd).

(** ** Sample data: a listing as the provider sends it *)

Definition role_entry (path name arn : string) : pyval :=
  PDict [("Path", PStr path); ("RoleName", PStr name); ("Arn", PStr arn)].

Definition page_of (roles : list pyval) (truncated : bool) : pyval :=
  PDict [("Roles", PList roles); ("IsTruncated", PBool truncated)].

Definition org_linked : pyval :=
  role_entry "/aws-service-role/org-linked/" "deploy-role"
             "arn:aws:iam::111122223333:role/deploy-role".

Definition plain : pyval :=
  role_entry "/" "deploy-role" "arn:aws:iam::111122223333:role/deploy-role".

Definition elasticache_linked : pyval :=
  role_entry "/aws-service-role/elasticache.amazonaws.com/"
             "AWSServiceRoleForElastiCache"
             "arn:aws:iam::111122223333:role/aws-service-role/elasticache.amazonaws.com/AWSServiceRoleForElastiCache".

Definition foreign : pyval :=
  role_entry "/" "audit" "arn:aws:iam::999988887777:role/audit".

(** Entries with a field missing. *)
Definition no_path : pyval :=
  PDict [("RoleName", PStr "ghost"); ("Arn", PStr "arn:aws:iam::111122223333:role/ghost")].

Definition no_arn : pyval :=
  PDict [("Path", PStr "/"); ("RoleName", PStr "nameless")].

(** A provider that knows the role [deploy-role] with the trust document
    [trust], accepts every write, and lists [pages]. *)
Definition trust : pyval :=
  PDict [("Version", PStr "2012-10-17");
         ("Statement",
          PList [PDict [("Effect", PStr "Allow");
                        ("Principal", PDict [("Service", PStr "ec2.amazonaws.com")]);
                        ("Action", PStr "sts:AssumeRole")]])].

Definition provider (pages : list pyval) : boto3.client :=
  boto3.mkClient
    (fun role_name =>
       if String.eqb role_name "deploy-role"
       then Return (PDict [("Role", PDict [("RoleName", PStr role_name);
                                           ("AssumeRolePolicyDocument", trust)])])
       else Raise (NoSuchEntityException
                     ("An error occurred (NoSuchEntity) when calling the GetRole operation: The role with name "
                        ++ role_name ++ " cannot be found.")))
    (fun role_name _ =>
       if String.eqb role_name "deploy-role"
       then Return (PDict [])
       else Raise (ClientError
                     "An error occurred (MalformedPolicyDocument) when calling the UpdateAssumeRolePolicy operation: Invalid principal in policy"))
    pages.

Definition catalog (pages : list pyval) : heap IAMRoles.t :=
  mkHeap (IAMRoles.init (provider pages) "111122223333" "us-east-1") [].

Definition no_defaults : ResourceType.supplied :=
  ResourceType.mkSupplied None false trust.

Definition deploy_role : heap IAMRole.t :=
  mkHeap (IAMRole.init no_defaults "deploy-role" "us-east-1" (provider []) "111122223333") [].

Definition vanished_role : heap IAMRole.t :=
  mkHeap (IAMRole.init no_defaults "gone" "us-east-1" (provider []) "111122223333") [].

(** Scans: the scenario of the spec (a service-linked entry next to an
    otherwise identical one), a listing cut into two pages, and listings
    with a malformed entry between two sound ones. *)
Definition scan_scenario : heap IAMRoles.t :=
  catalog [page_of [org_linked; plain] false].

Definition scan_two_pages : heap IAMRoles.t :=
  catalog [page_of [plain; elasticache_linked] true; page_of [foreign] false].

Definition scan_no_path : heap IAMRoles.t :=
  catalog [page_of [plain; no_path; foreign] false].

Definition scan_no_arn : heap IAMRoles.t :=
  catalog [page_of [plain; no_arn; foreign] false].

(** The trust document of [deploy-role] after a grant for [evil-corp] was
    injected, as handed to [set_rbp]. *)
Definition evil_trust : pyval :=
  PolicyDocument.json
    (PolicyDocument.inject_grant
       (document_for (self deploy_role) trust) "evil-corp"
       (IAMRole.arn (self deploy_role))).

(** The trust-style document of the spec's scenario: one statement, the
    override action [assume-role], no resource block. *)
Definition scenario_document : PolicyDocument.t :=
  PolicyDocument.init trust "iam" (Some "assume-role") false None false.

(** A serialiser to run the samples with; only its being a function
    matters. *)
Definition sample_dumps (v : pyval) : string :=
  match v with
  | PDict _ => "{...}"
  | _ => "null"
  end.

(** ** Pages of any shape *)

(** What the inner loop of [resources] iterates over for a page:
    [page["Roles"]], then its elements; either step can raise. *)
Definition page_entries (page : pyval) : outcome (list pyval) :=
  match Py.getitem page "Roles" with
  | Return roles => Py.iter roles
  | Raise e => Raise e
  end.

(** Every page can be iterated and every element met carries a string
    path. *)
Definition scannable (pages : list pyval) : bool :=
  forallb (fun page =>
             match page_entries page with
             | Return l => forallb has_path l
             | Raise _ => false
             end) pages.

(** The elements met, page after page. *)
Definition entries (pages : list pyval) : list pyval :=
  flat_map (fun page =>
              match page_entries page with
              | Return l => l
              | Raise _ => []
              end) pages.

(** A string without a colon, as an account id is. *)
Fixpoint no_colon (s : string) : bool :=
  match s with
  | EmptyString => true
  | String c s' => negb (Ascii.eqb c ":"%char) && no_colon s'
  end.

(** The debug records the two methods of a role start with. *)
Definition getting (this : IAMRole.t) : logging.record :=
  (logging.DEBUG, "Getting resource policy for " ++ IAMRole.arn this)%string.

Definition setting (this : IAMRole.t) : logging.record :=
  (logging.DEBUG, "Setting resource policy for " ++ IAMRole.arn this)%string.

(** ** More sample data *)

(** A provider that cannot be reached: every call raises an exception
    that is not a client error. *)
Definition unreachable : boto3.client :=
  boto3.mkClient
    (fun _ => Raise (OtherException "Could not connect to the endpoint URL"))
    (fun _ _ => Raise (OtherException "Could not connect to the endpoint URL"))
    [].

Definition offline_role : heap IAMRole.t :=
  mkHeap (IAMRole.init no_defaults "deploy-role" "us-east-1" unreachable "111122223333") [].

(** A provider whose [get_role] answers with a role that carries no
    trust document. *)
Definition bare_provider : boto3.client :=
  boto3.mkClient
    (fun role_name => Return (PDict [("Role", PDict [("RoleName", PStr role_name)])]))
    (fun _ _ => Return (PDict []))
    [].

Definition bare_role : heap IAMRole.t :=
  mkHeap (IAMRole.init no_defaults "deploy-role" "us-east-1" bare_provider "111122223333") [].

Definition service_role : pyval :=
  role_entry "/service-role/" "lambda-exec"
             "arn:aws:iam::111122223333:role/service-role/lambda-exec".

Definition scan_service_role : heap IAMRoles.t :=
  catalog [page_of [plain; service_role] false].

Definition scan_only_linked : heap IAMRoles.t :=
  catalog [page_of [org_linked] true; page_of [elasticache_linked] false].

(** Pages of a wrong shape after a sound one: no [Roles] key, and a null
    [Roles]. *)
Definition scan_no_roles_key : heap IAMRoles.t :=
  catalog [page_of [plain] true; PDict [("IsTruncated", PBool false)]].

Definition scan_null_roles : heap IAMRoles.t :=
  catalog [page_of [plain] true; PDict [("Roles", PNone)]].

(* ===================================================================== *)
(** * Enumeration: the loops *)
(* ===================================================================== *)

Section Enumeration.

Variable this : IAMRoles.t.

Lemma visit_role_with_path role p acc h :
  role_path role = Some p ->
  IAMRoles.visit_role this role acc h =
    (Return (if String.prefix "/aws-service-role/" p then acc
             else acc ++ [listed_as this role]), h).
Proof.
  destruct role as [| | | |l|d]; try discriminate.
  unfold role_path, IAMRoles.visit_role, listed_as, field; simpl.
  destruct (lookup "Path" d) as [[| | |s| |]|]; try discriminate.
  intros [= ->]. unfold bind, lift; simpl.
  destruct (String.prefix _ p); reflexivity.
Qed.

Lemma visit_role_without_path role acc h :
  role_path role = None ->
  IAMRoles.visit_role this role acc h = (Raise AttributeError, h).
Proof.
  destruct role as [| | | |l|d]; try reflexivity.
  unfold role_path, IAMRoles.visit_role; simpl.
  destruct (lookup "Path" d) as [[| | |s| |]|]; try discriminate; reflexivity.
Qed.

Lemma visit_role_kept role acc h :
  has_path role = true ->
  IAMRoles.visit_role this role acc h =
    (Return (acc ++ map (listed_as this) (kept [role])), h).
Proof.
  unfold has_path. destruct (role_path role) as [p|] eqn:E; try discriminate.
  intros _. rewrite (visit_role_with_path _ _ _ _ E).
  unfold kept, service_linked; simpl. rewrite E.
  destruct (String.prefix _ p); simpl; now rewrite ?app_nil_r.
Qed.

Lemma kept_app l1 l2 : kept (l1 ++ l2) = kept l1 ++ kept l2.
Proof. apply filter_app. Qed.

Lemma roles_loop roles : forall acc h,
  forallb has_path roles = true ->
  for_in roles (IAMRoles.visit_role this) acc h =
    (Return (acc ++ map (listed_as this) (kept roles)), h).
Proof.
  induction roles as [|role roles IH]; intros acc h Hp; cbn [for_in forallb] in *.
  - unfold ret. simpl. now rewrite app_nil_r.
  - apply andb_true_iff in Hp as [Hr Hrs].
    unfold bind. rewrite (visit_role_kept _ _ _ Hr), (IH _ _ Hrs).
    change (role :: roles) with ([role] ++ roles).
    now rewrite kept_app, map_app, app_assoc.
Qed.

Lemma roles_loop_stops before bad after : forall acc h,
  forallb has_path before = true ->
  has_path bad = false ->
  for_in (before ++ bad :: after) (IAMRoles.visit_role this) acc h =
    (Raise AttributeError, h).
Proof.
  induction before as [|role before IH]; intros acc h Hp Hb; simpl in *.
  - unfold bind. rewrite visit_role_without_path; [reflexivity|].
    unfold has_path in Hb. now destruct (role_path bad).
  - apply andb_true_iff in Hp as [Hr Hrs].
    unfold bind. rewrite (visit_role_kept _ _ _ Hr). now apply IH.
Qed.

Lemma visit_page_spec page acc h :
  is_page page = true ->
  forallb has_path (page_roles page) = true ->
  IAMRoles.visit_page this page acc h =
    (Return (acc ++ map (listed_as this) (kept (page_roles page))), h).
Proof.
  unfold is_page, page_roles, IAMRoles.visit_page.
  destruct (getitem page "Roles") as [[| | | |l|]|] eqn:E; try discriminate.
  intros _ Hp. unfold bind at 1, lift at 1.
  unfold bind at 1, lift at 1. cbn [Py.iter]. now apply roles_loop.
Qed.

Lemma visit_page_stops page before bad after acc h :
  is_page page = true ->
  page_roles page = before ++ bad :: after ->
  forallb has_path before = true ->
  has_path bad = false ->
  IAMRoles.visit_page this page acc h = (Raise AttributeError, h).
Proof.
  unfold is_page, page_roles, IAMRoles.visit_page.
  destruct (getitem page "Roles") as [[| | | |l|]|] eqn:E; try discriminate.
  intros _ -> Hp Hb. unfold bind at 1, lift at 1.
  unfold bind at 1, lift at 1. cbn [Py.iter]. now apply roles_loop_stops.
Qed.

Lemma pages_loop pages : forall acc h,
  well_formed pages = true ->
  for_in pages (IAMRoles.visit_page this) acc h =
    (Return (acc ++ map (listed_as this) (kept (listing pages))), h).
Proof.
  induction pages as [|page pages IH]; intros acc h Hw;
    unfold well_formed in *; cbn [for_in forallb] in *.
  - unfold ret. simpl. now rewrite app_nil_r.
  - apply andb_true_iff in Hw as [Hpg Hw].
    apply andb_true_iff in Hpg as [Hpg Hr].
    unfold bind. rewrite (visit_page_spec _ _ _ Hpg Hr), (IH _ _ Hw).
    change (listing (page :: pages)) with (page_roles page ++ listing pages).
    now rewrite kept_app, map_app, app_assoc.
Qed.

Lemma pages_loop_stops earlier page later before bad after : forall acc h,
  well_formed earlier = true ->
  is_page page = true ->
  page_roles page = before ++ bad :: after ->
  forallb has_path before = true ->
  has_path bad = false ->
  for_in (earlier ++ page :: later) (IAMRoles.visit_page this) acc h =
    (Raise AttributeError, h).
Proof.
  induction earlier as [|pg earlier IH]; intros acc h Hw Hpg Hsplit Hp Hb;
    simpl in *.
  - unfold bind.
    now rewrite (visit_page_stops _ _ _ _ _ _ Hpg Hsplit Hp Hb).
  - apply andb_true_iff in Hw as [Hpg' Hw].
    apply andb_true_iff in Hpg' as [Hpg' Hr].
    unfold bind. rewrite (visit_page_spec _ _ _ Hpg' Hr). now apply IH.
Qed.

End Enumeration.

(* ===================================================================== *)
(** * Enumeration: [IAMRoles.resources] *)
(* ===================================================================== *)

Lemma resources_returns (h : heap IAMRoles.t) :
  well_formed (pages_of h) = true ->
  IAMRoles.resources h =
    (Return (map (listed_as (self h)) (kept (listing (pages_of h)))), h).
Proof.
  intros Hw.
  change (IAMRoles.resources h)
    with (for_in (pages_of h) (IAMRoles.visit_page (self h)) [] h).
  exact (pages_loop (self h) _ [] h Hw).
Qed.

Lemma resources_stops (h : heap IAMRoles.t) earlier page later before bad after :
  pages_of h = earlier ++ page :: later ->
  well_formed earlier = true ->
  is_page page = true ->
  page_roles page = before ++ bad :: after ->
  forallb has_path before = true ->
  has_path bad = false ->
  IAMRoles.resources h = (Raise AttributeError, h).
Proof.
  intros Hs Hw Hpg Hr Hb Hbad.
  change (IAMRoles.resources h)
    with (for_in (pages_of h) (IAMRoles.visit_page (self h)) [] h).
  rewrite Hs.
  now apply (pages_loop_stops (self h) earlier page later before bad after).
Qed.

Lemma kept_not_service_linked roles :
  Forall (fun role => service_linked role = false) (kept roles).
Proof.
  apply Forall_forall. intros role Hin. apply filter_In in Hin as [_ H].
  now apply negb_true_iff.
Qed.

Lemma length_kept roles :
  length (kept roles) = length roles - length (filter service_linked roles).
Proof.
  pose proof (filter_length service_linked roles) as H. unfold kept. lia.
Qed.

Lemma NoDup_map_filter {A B} (f : A -> B) (keep : A -> bool) (l : list A) :
  NoDup (map f l) -> NoDup (map f (filter keep l)).
Proof.
  induction l as [|x l IH]; simpl; intros H; [constructor|].
  inversion H as [|? ? Hx Hl]; subst.
  destruct (keep x); simpl; [constructor|]; auto.
  intros Hin. apply Hx. apply in_map_iff in Hin as [y [<- Hy]].
  apply in_map. now apply filter_In in Hy as [Hy _].
Qed.

Lemma for_in_preserves {St A B} (I : B -> Prop) (body : A -> B -> M St B) :
  (forall x acc s acc' s', I acc -> body x acc s = (Return acc', s') -> I acc') ->
  forall xs acc s acc' s',
    I acc -> for_in xs body acc s = (Return acc', s') -> I acc'.
Proof.
  intros Hbody xs. induction xs as [|x xs IH]; intros acc s acc' s' Hacc Hrun.
  - cbn in Hrun. injection Hrun as <- _. exact Hacc.
  - cbn [for_in] in Hrun. unfold bind in Hrun.
    destruct (body x acc s) as [[acc1|e] s1] eqn:Hx; [|discriminate].
    eapply IH; [|exact Hrun]. eapply Hbody; eassumption.
Qed.

Lemma visit_role_issues this role acc s acc' s' :
  issued_by this acc ->
  IAMRoles.visit_role this role acc s = (Return acc', s') ->
  issued_by this acc'.
Proof.
  intros Hacc Hrun. destruct (role_path role) as [p|] eqn:Hp.
  - rewrite (visit_role_with_path this role p acc s Hp) in Hrun.
    injection Hrun as <- _. destruct (String.prefix _ p); [exact Hacc|].
    apply Forall_app. split; [exact Hacc|]. constructor; [|constructor].
    now exists role.
  - rewrite (visit_role_without_path this role acc s Hp) in Hrun. discriminate.
Qed.

Lemma visit_page_issues this page acc s acc' s' :
  issued_by this acc ->
  IAMRoles.visit_page this page acc s = (Return acc', s') ->
  issued_by this acc'.
Proof.
  intros Hacc. unfold IAMRoles.visit_page, bind at 1, lift at 1.
  destruct (getitem page "Roles") as [roles|]; [|discriminate].
  unfold bind at 1, lift at 1.
  destruct (Py.iter roles) as [roles_seq|]; [|discriminate].
  apply for_in_preserves; [|exact Hacc].
  intros x a s0 a' s0'. apply visit_role_issues.
Qed.

Lemma resources_issues (h : heap IAMRoles.t) out h' :
  IAMRoles.resources h = (Return out, h') -> issued_by (self h) out.
Proof.
  change (IAMRoles.resources h)
    with (for_in (pages_of h) (IAMRoles.visit_page (self h)) [] h).
  apply for_in_preserves; [|constructor].
  intros x a s0 a' s0'. apply visit_page_issues.
Qed.

Lemma map_arn_listed this roles :
  map ListResourcesResponse.arn (map (listed_as this) roles) =
  map (fun role => field role "Arn") roles.
Proof. rewrite map_map. reflexivity. Qed.

Lemma map_name_listed this roles :
  map ListResourcesResponse.name (map (listed_as this) roles) =
  map (fun role => field role "RoleName") roles.
Proof. rewrite map_map. reflexivity. Qed.

(** C5: an entry of the listing is left out of the returned list exactly
    when its path begins with [/aws-service-role/]: whatever stands before
    and after it, the entry contributes nothing when its path has the
    prefix, and its one record otherwise. *)
Theorem resources_excludes_service_linked
        (h : heap IAMRoles.t) (before : list pyval) (role : pyval)
        (after : list pyval) (p : string) :
  well_formed (pages_of h) = true ->
  listing (pages_of h) = before ++ role :: after ->
  role_path role = Some p ->
  IAMRoles.resources h =
    (Return (map (listed_as (self h)) (kept before)
             ++ (if String.prefix "/aws-service-role/" p then []
                 else [listed_as (self h) role])
             ++ map (listed_as (self h)) (kept after)), h).
Proof.
  intros Hw Hl Hp. rewrite (resources_returns h Hw), Hl.
  change (role :: after) with ([role] ++ after).
  rewrite !kept_app, !map_app. do 3 f_equal.
  unfold kept, service_linked. cbn [filter]. rewrite Hp.
  now destruct (String.prefix _ p).
Qed.

(** The scenario of the spec: the entry under
    [/aws-service-role/org-linked/] is left out, its twin under [/] is
    listed. *)
Lemma resources_excludes_service_linked_scenario :
  IAMRoles.resources scan_scenario =
    (Return [listed_as (self scan_scenario) plain], scan_scenario).
Proof.
  exact (resources_excludes_service_linked
           scan_scenario [] org_linked [plain] "/aws-service-role/org-linked/"
           eq_refl eq_refl eq_refl).
Defined.

Example plain_role_is_listed :
  fst (IAMRoles.resources scan_scenario) =
    Return [ListResourcesResponse.mk
              "iam" "111122223333"
              (PStr "arn:aws:iam::111122223333:role/deploy-role")
              "us-east-1" "role" (PStr "deploy-role")].
Proof. reflexivity. Qed.

(** C6: over pages whose role counts sum to M, the returned list has M
    entries minus the service-linked ones; it is the listing in order,
    one record per kept entry, so nothing kept is missing and distinct
    entries stay distinct; and it does not depend on where the page
    boundaries fall. *)
Theorem resources_lists_every_page (h : heap IAMRoles.t) :
  well_formed (pages_of h) = true ->
  exists out,
    IAMRoles.resources h = (Return out, h) /\
    out = map (listed_as (self h)) (kept (listing (pages_of h))) /\
    length out =
      list_sum (map (fun page => length (page_roles page)) (pages_of h))
      - length (filter service_linked (listing (pages_of h))) /\
    (forall role, In role (listing (pages_of h)) ->
                  service_linked role = false ->
                  In (listed_as (self h) role) out) /\
    (NoDup (map (fun role => field role "Arn") (listing (pages_of h))) ->
     NoDup (map ListResourcesResponse.arn out)) /\
    (forall pages',
        well_formed pages' = true ->
        listing pages' = listing (pages_of h) ->
        IAMRoles.resources (repaged h pages') = (Return out, repaged h pages')).
Proof.
  intros Hw. eexists. split; [apply (resources_returns h Hw)|].
  split; [reflexivity|]. split; [|split; [|split]].
  - rewrite length_map, length_kept. unfold listing at 1.
    now rewrite length_flat_map.
  - intros role Hin Hs. apply in_map. apply filter_In. split; [exact Hin|].
    now rewrite Hs.
  - intros Hn. rewrite map_arn_listed. now apply NoDup_map_filter.
  - intros pages' Hw' Hl.
    assert (Hp : pages_of (repaged h pages') = pages') by reflexivity.
    rewrite resources_returns by now rewrite Hp.
    rewrite Hp, Hl. reflexivity.
Qed.

Lemma resources_lists_every_page_run :
  exists out,
    IAMRoles.resources scan_two_pages = (Return out, scan_two_pages) /\
    length out = 2 /\
    In (listed_as (self scan_two_pages) foreign) out /\
    NoDup (map ListResourcesResponse.arn out) /\
    IAMRoles.resources
      (repaged scan_two_pages
               [page_of [plain] true; page_of [] true;
                page_of [elasticache_linked; foreign] false])
    = (Return out,
       repaged scan_two_pages
               [page_of [plain] true; page_of [] true;
                page_of [elasticache_linked; foreign] false]).
Proof.
  destruct (resources_lists_every_page scan_two_pages eq_refl)
    as (out & Hrun & _ & Hlen & Hin & Hnodup & Hpages).
  exists out. split; [exact Hrun|]. split; [exact Hlen|].
  split; [|split].
  - apply Hin; [|reflexivity]. right; right; left; reflexivity.
  - apply Hnodup. repeat constructor; cbn; intuition discriminate.
  - apply Hpages; reflexivity.
Defined.

(** C7, as the code has it: when every listed entry carries a string
    [Path] the scan returns every entry that is not service-linked, and an
    entry without [Arn] or [RoleName] is not skipped but listed with a
    null [arn] or [name]; a listed entry without a string [Path] is not
    skipped either: the first one makes the whole scan raise
    [AttributeError]. *)
Theorem resources_on_malformed_entry (h : heap IAMRoles.t) :
  (well_formed (pages_of h) = true ->
   IAMRoles.resources h =
     (Return (map (listed_as (self h)) (kept (listing (pages_of h)))), h)) /\
  (forall d,
      ListResourcesResponse.arn (listed_as (self h) (PDict d)) =
        match lookup "Arn" d with Some v => v | None => PNone end /\
      ListResourcesResponse.name (listed_as (self h) (PDict d)) =
        match lookup "RoleName" d with Some v => v | None => PNone end) /\
  (forall earlier page later before bad after,
      pages_of h = earlier ++ page :: later ->
      well_formed earlier = true ->
      is_page page = true ->
      page_roles page = before ++ bad :: after ->
      forallb has_path before = true ->
      has_path bad = false ->
      IAMRoles.resources h = (Raise AttributeError, h)).
Proof.
  split; [apply resources_returns|]. split.
  - intros d. split; reflexivity.
  - intros. eapply resources_stops; eassumption.
Qed.

Lemma resources_on_malformed_entry_runs :
  IAMRoles.resources scan_no_arn =
    (Return [listed_as (self scan_no_arn) plain;
             ListResourcesResponse.mk "iam" "111122223333" PNone
                                      "us-east-1" "role" (PStr "nameless");
             listed_as (self scan_no_arn) foreign], scan_no_arn) /\
  IAMRoles.resources scan_no_path = (Raise AttributeError, scan_no_path).
Proof.
  split.
  - exact (proj1 (resources_on_malformed_entry scan_no_arn) eq_refl).
  - exact (proj2 (proj2 (resources_on_malformed_entry scan_no_path))
             [] (page_of [plain; no_path; foreign] false) []
             [plain] no_path [foreign]
             eq_refl eq_refl eq_refl eq_refl eq_refl eq_refl).
Defined.

(** C7 as the spec states it fails: with one entry lacking [Path] between
    two sound entries the scan raises instead of returning the two, and an
    entry lacking [Arn] is returned, not skipped. *)
Lemma malformed_entry_is_not_skipped :
  fst (IAMRoles.resources scan_no_path) = Raise AttributeError /\
  fst (IAMRoles.resources scan_no_path)
    <> Return (map (listed_as (self scan_no_path)) [plain; foreign]) /\
  fst (IAMRoles.resources scan_no_arn)
    <> Return (map (listed_as (self scan_no_arn)) [plain; foreign]).
Proof.
  split; [reflexivity|]. split; intros H; vm_compute in H; discriminate H.
Qed.

(** C10: in every record a catalog returns, [account_id] and [region] are
    the ones the catalog was constructed with, and [arn] and [name] are
    the [Arn] and [RoleName] of a listed entry as [role.get] gives them,
    whatever account that [Arn] names; over a listing whose entries carry
    a path the run returns, with the [arn]s and [name]s of the kept
    entries in order. *)
Theorem resources_account_and_region
        (client : boto3.client) (current_account_id region : string)
        (lg : list logging.record) :
  (forall out h',
      IAMRoles.resources (mkHeap (IAMRoles.init client current_account_id region) lg)
        = (Return out, h') ->
      Forall (fun r =>
                ListResourcesResponse.account_id r = current_account_id /\
                ListResourcesResponse.region r = region /\
                exists role,
                  ListResourcesResponse.arn r = field role "Arn" /\
                  ListResourcesResponse.name r = field role "RoleName") out) /\
  (well_formed (boto3.list_roles_pages client) = true ->
   exists out,
     IAMRoles.resources (mkHeap (IAMRoles.init client current_account_id region) lg)
       = (Return out, mkHeap (IAMRoles.init client current_account_id region) lg) /\
     map ListResourcesResponse.arn out =
       map (fun role => field role "Arn")
           (kept (listing (boto3.list_roles_pages client))) /\
     map ListResourcesResponse.name out =
       map (fun role => field role "RoleName")
           (kept (listing (boto3.list_roles_pages client)))).
Proof.
  split.
  - intros out h' Hrun. apply resources_issues in Hrun.
    eapply Forall_impl; [|exact Hrun]. cbn beta.
    intros r [role ->]. split; [reflexivity|]. split; [reflexivity|].
    now exists role.
  - intros Hw. eexists. split; [apply resources_returns; exact Hw|].
    split; [apply map_arn_listed|apply map_name_listed].
Qed.

Lemma resources_account_and_region_foreign_arn :
  exists out,
    IAMRoles.resources scan_two_pages = (Return out, scan_two_pages) /\
    Forall (fun r => ListResourcesResponse.account_id r = "111122223333" /\
                     ListResourcesResponse.region r = "us-east-1") out /\
    map ListResourcesResponse.arn out =
      [PStr "arn:aws:iam::111122223333:role/deploy-role";
       PStr "arn:aws:iam::999988887777:role/audit"].
Proof.
  pose proof (resources_account_and_region
                (provider [page_of [plain; elasticache_linked] true;
                           page_of [foreign] false])
                "111122223333" "us-east-1" []) as [Hany Hwf].
  destruct (Hwf eq_refl) as (out & Hrun & Harn & _).
  exists out. split; [exact Hrun|]. split; [|exact Harn].
  eapply Forall_impl; [|exact (Hany out _ Hrun)]. cbn beta.
  intros r (Hacc & Hreg & _). now split.
Defined.

(* ===================================================================== *)
(** * One role: [IAMRole._get_rbp] and [IAMRole.set_rbp] *)
(* ===================================================================== *)

Ltac run_method :=
  unfold IAMRole._get_rbp, IAMRole.set_rbp, bind, lift, try_except, get_self,
    logger.debug, logger.critical, emit, ret, logged; cbn [fst snd self log].

(** What [_get_rbp] does, by what the provider answers. *)
Lemma get_rbp_run (h : heap IAMRole.t) :
  IAMRole._get_rbp h =
    let this := self h in
    let h1 := logged h [(logging.DEBUG, ("Getting resource policy for " ++ IAMRole.arn this)%string)] in
    match boto3.get_role (ResourceType.client this) (ResourceType.name this) with
    | Return response =>
        match Py.get response "Role" with
        | Return role =>
            match Py.get role "AssumeRolePolicyDocument" with
            | Return policy =>
                (Return (ResponseGetRbp.mk (document_for this policy) true), h1)
            | Raise e => (Raise e, h1)
            end
        | Raise e => (Raise e, h1)
        end
    | Raise e =>
        if is_NoSuchEntityException e then
          (Return (ResponseGetRbp.mk (document_for this constants.get_empty_policy) false),
           logged h1 [(logging.CRITICAL,
                       ("There is no resource with the name "
                          ++ ResourceType.name this)%string)])
        else if is_ClientError e then
          (Return (ResponseGetRbp.mk (document_for this constants.get_empty_policy) false), h1)
        else (Raise e, h1)
    end.
Proof.
  run_method.
  destruct (boto3.get_role _ _) as [response|e]; cbn.
  - destruct response; cbn; try reflexivity.
    destruct (match lookup "Role" d with Some x => x | None => PNone end);
      reflexivity.
  - destruct e; reflexivity.
Qed.

(** What [set_rbp] does, by what the provider answers. *)
Lemma set_rbp_run (json_dumps : pyval -> string) (evil_policy : pyval)
      (h : heap IAMRole.t) :
  IAMRole.set_rbp json_dumps evil_policy h =
    let this := self h in
    let h1 := logged h [(logging.DEBUG, ("Setting resource policy for " ++ IAMRole.arn this)%string)] in
    let answer message success :=
      ResponseMessage.mk message "set_rbp" success ""
        (IAMRole.arn this) (ResourceType.original_policy this) evil_policy
        (ResourceType.resource_type this) (ResourceType.name this)
        (ResourceType.service this) in
    match boto3.update_assume_role_policy
            (ResourceType.client this) (ResourceType.name this)
            (json_dumps evil_policy) with
    | Return _ => (Return (answer "success" true), h1)
    | Raise error =>
        if is_ClientError error then
          (Return (answer (Py.str error) false),
           logged h1 [(logging.CRITICAL, Py.str error)])
        else (Raise error, h1)
    end.
Proof.
  run_method.
  destruct (boto3.update_assume_role_policy _ _ _) as [response|e]; cbn.
  - reflexivity.
  - destruct e; reflexivity.
Qed.

Lemma get_rbp_keeps_self (h : heap IAMRole.t) :
  self (snd (IAMRole._get_rbp h)) = self h.
Proof.
  rewrite get_rbp_run. cbv zeta.
  destruct (boto3.get_role _ _) as [response|e].
  - destruct (Py.get response "Role") as [role|]; [|reflexivity].
    destruct (Py.get role _); reflexivity.
  - destruct (is_NoSuchEntityException e), (is_ClientError e); reflexivity.
Qed.

Lemma set_rbp_keeps_self json_dumps evil_policy (h : heap IAMRole.t) :
  self (snd (IAMRole.set_rbp json_dumps evil_policy h)) = self h.
Proof.
  rewrite set_rbp_run. cbv zeta.
  destruct (boto3.update_assume_role_policy _ _ _) as [response|e].
  - reflexivity.
  - destruct (is_ClientError e); reflexivity.
Qed.

Lemma run_calls_keeps_self json_dumps (calls : list call) :
  forall h, self (run_calls json_dumps calls h) = self h.
Proof.
  induction calls as [|c calls IH]; intros h; [reflexivity|].
  unfold run_calls in *. cbn [fold_left]. rewrite IH.
  destruct c; [apply get_rbp_keeps_self|apply set_rbp_keeps_self].
Qed.

(** Whatever [_get_rbp] returns carries a document built for the
    instance. *)
Lemma get_rbp_document (h : heap IAMRole.t) r h' :
  IAMRole._get_rbp h = (Return r, h') ->
  exists policy,
    ResponseGetRbp.policy_document r = document_for (self h) policy.
Proof.
  rewrite get_rbp_run. cbv zeta.
  destruct (boto3.get_role _ _) as [response|e].
  - destruct (Py.get response "Role") as [role|]; [|discriminate].
    destruct (Py.get role _) as [policy|]; [|discriminate].
    intros [= <- _]. now exists policy.
  - destruct (is_NoSuchEntityException e); [|destruct (is_ClientError e)];
      try discriminate; intros [= <- _]; now eexists.
Qed.

(** C3: when the provider answers [get_role] with a client error, the
    not-found one or any other, [_get_rbp] raises nothing: it returns
    [success = False] with the document of the empty policy, which has no
    statement and is a policy object, and the not-found case is logged at
    critical level; and whatever [_get_rbp] returns, in the success case
    too, carries a document that is a policy object, never null. *)
Theorem get_rbp_falls_back_to_empty_policy (h : heap IAMRole.t) (e : exn) :
  boto3.get_role (ResourceType.client (self h)) (ResourceType.name (self h))
    = Raise e ->
  is_ClientError e = true ->
  IAMRole._get_rbp h =
    (Return (ResponseGetRbp.mk
               (document_for (self h) constants.get_empty_policy) false),
     logged h
       ((logging.DEBUG,
         ("Getting resource policy for " ++ IAMRole.arn (self h))%string)
        :: (if is_NoSuchEntityException e
            then [(logging.CRITICAL,
                   ("There is no resource with the name "
                      ++ ResourceType.name (self h))%string)]
            else []))) /\
  PolicyDocument.statements
    (document_for (self h) constants.get_empty_policy) = [] /\
  PolicyDocument.json (document_for (self h) constants.get_empty_policy)
    = constants.get_empty_policy /\
  (forall h0 r h1,
      IAMRole._get_rbp h0 = (Return r, h1) ->
      is_policy_object (PolicyDocument.json (ResponseGetRbp.policy_document r))
        = true /\
      PolicyDocument.json (ResponseGetRbp.policy_document r) <> PNone).
Proof.
  intros Hget Hce. split; [|split; [reflexivity|split; [reflexivity|]]].
  - rewrite get_rbp_run. cbv zeta. rewrite Hget.
    destruct (is_NoSuchEntityException e).
    + unfold logged; cbn [self log]. now rewrite <- app_assoc.
    + now rewrite Hce.
  - intros h0 r h1 _. split; [reflexivity|discriminate].
Qed.

Lemma get_rbp_of_vanished_role :
  IAMRole._get_rbp vanished_role =
    (Return (ResponseGetRbp.mk
               (PolicyDocument.mk [] "iam" (Some "sts:AssumeRole") false None false)
               false),
     mkHeap (self vanished_role)
            [(logging.DEBUG,
              "Getting resource policy for arn:aws:iam::111122223333:role/gone");
             (logging.CRITICAL, "There is no resource with the name gone")]) /\
  is_policy_object
    (PolicyDocument.json (document_for (self deploy_role) trust)) = true.
Proof.
  pose proof (get_rbp_falls_back_to_empty_policy
                vanished_role
                (NoSuchEntityException
                   "An error occurred (NoSuchEntity) when calling the GetRole operation: The role with name gone cannot be found.")
                eq_refl eq_refl) as (Hrun & _ & _ & Hany).
  split; [exact Hrun|].
  exact (proj1 (Hany deploy_role
                     (ResponseGetRbp.mk (document_for (self deploy_role) trust) true)
                     (snd (IAMRole._get_rbp deploy_role)) eq_refl)).
Defined.

(** C4: when the provider accepts the write, [set_rbp] returns
    [success = True] with the message [success]; when the provider rejects
    it with a client error, [set_rbp] raises nothing and returns
    [success = False] with the error's text as message, logged at critical
    level; either way the record carries the instance's [original_policy]
    and the attempted policy as [updated_policy]. *)
Theorem set_rbp_reports_outcome
        (json_dumps : pyval -> string) (evil_policy : pyval)
        (h : heap IAMRole.t) :
  (forall response,
      boto3.update_assume_role_policy
        (ResourceType.client (self h)) (ResourceType.name (self h))
        (json_dumps evil_policy) = Return response ->
      IAMRole.set_rbp json_dumps evil_policy h =
        (Return (ResponseMessage.mk
                   "success" "set_rbp" true ""
                   (IAMRole.arn (self h)) (ResourceType.original_policy (self h))
                   evil_policy (ResourceType.resource_type (self h))
                   (ResourceType.name (self h)) (ResourceType.service (self h))),
         logged h [(logging.DEBUG,
                    ("Setting resource policy for " ++ IAMRole.arn (self h))%string)])) /\
  (forall error,
      boto3.update_assume_role_policy
        (ResourceType.client (self h)) (ResourceType.name (self h))
        (json_dumps evil_policy) = Raise error ->
      is_ClientError error = true ->
      IAMRole.set_rbp json_dumps evil_policy h =
        (Return (ResponseMessage.mk
                   (Py.str error) "set_rbp" false ""
                   (IAMRole.arn (self h)) (ResourceType.original_policy (self h))
                   evil_policy (ResourceType.resource_type (self h))
                   (ResourceType.name (self h)) (ResourceType.service (self h))),
         logged h [(logging.DEBUG,
                    ("Setting resource policy for " ++ IAMRole.arn (self h))%string);
                   (logging.CRITICAL, Py.str error)])) /\
  (forall r h',
      IAMRole.set_rbp json_dumps evil_policy h = (Return r, h') ->
      ResponseMessage.original_policy r = ResourceType.original_policy (self h) /\
      ResponseMessage.updated_policy r = evil_policy).
Proof.
  rewrite set_rbp_run. cbv zeta. split; [|split].
  - intros response ->. reflexivity.
  - intros error -> ->. unfold logged; cbn [self log].
    now rewrite <- app_assoc.
  - intros r h'.
    destruct (boto3.update_assume_role_policy _ _ _) as [response|error].
    + intros [= <- _]. now split.
    + destruct (is_ClientError error); [|discriminate].
      intros [= <- _]. now split.
Qed.

Lemma set_rbp_accepted_and_rejected :
  fst (IAMRole.set_rbp sample_dumps evil_trust deploy_role) =
    Return (ResponseMessage.mk
              "success" "set_rbp" true ""
              "arn:aws:iam::111122223333:role/deploy-role" trust evil_trust
              "role" "deploy-role" "iam") /\
  fst (IAMRole.set_rbp sample_dumps evil_trust vanished_role) =
    Return (ResponseMessage.mk
              "An error occurred (MalformedPolicyDocument) when calling the UpdateAssumeRolePolicy operation: Invalid principal in policy"
              "set_rbp" false ""
              "arn:aws:iam::111122223333:role/gone" trust evil_trust
              "role" "gone" "iam") /\
  ResponseMessage.updated_policy
    (ResponseMessage.mk
       "An error occurred (MalformedPolicyDocument) when calling the UpdateAssumeRolePolicy operation: Invalid principal in policy"
       "set_rbp" false ""
       "arn:aws:iam::111122223333:role/gone" trust evil_trust
       "role" "gone" "iam") = evil_trust.
Proof.
  split; [|split].
  - exact (f_equal fst
             (proj1 (set_rbp_reports_outcome sample_dumps evil_trust deploy_role)
                    (PDict []) eq_refl)).
  - exact (f_equal fst
             (proj1 (proj2 (set_rbp_reports_outcome sample_dumps evil_trust
                                                    vanished_role))
                    (ClientError
                       "An error occurred (MalformedPolicyDocument) when calling the UpdateAssumeRolePolicy operation: Invalid principal in policy")
                    eq_refl eq_refl)).
  - exact (proj2
             (proj2 (proj2 (set_rbp_reports_outcome sample_dumps evil_trust
                                                    vanished_role))
                    _ (snd (IAMRole.set_rbp sample_dumps evil_trust vanished_role))
                    eq_refl)).
Defined.

(** C8: the four behavioural flags of an instance are the same after any
    sequence of [get_policy] and [set_policy] calls as before it, no call
    assigns them; and the document a later [get_policy] returns is built
    with exactly the instance's flag values. *)
Theorem flags_outlive_every_call
        (json_dumps : pyval -> string) (calls : list call)
        (h : heap IAMRole.t) :
  flags (self (run_calls json_dumps calls h)) = flags (self h) /\
  (forall r h',
      IAMRole._get_rbp (run_calls json_dumps calls h) = (Return r, h') ->
      document_flags (ResponseGetRbp.policy_document r) = flags (self h) /\
      flags (self h') = flags (self h)).
Proof.
  split; [now rewrite run_calls_keeps_self|].
  intros r h' Hrun. split.
  - destruct (get_rbp_document _ _ _ Hrun) as [policy ->].
    now rewrite run_calls_keeps_self.
  - pose proof (get_rbp_keeps_self (run_calls json_dumps calls h)) as Hk.
    rewrite Hrun in Hk. cbn [snd] in Hk.
    now rewrite Hk, run_calls_keeps_self.
Qed.

Lemma flags_outlive_every_call_run :
  document_flags (document_for (self deploy_role) trust)
    = (false, Some "sts:AssumeRole", None, false) /\
  flags (self (run_calls sample_dumps
                         [get_policy; set_policy evil_trust; get_policy]
                         deploy_role))
    = (false, Some "sts:AssumeRole", None, false).
Proof.
  split.
  - exact (proj1
             (proj2 (flags_outlive_every_call
                       sample_dumps [get_policy; set_policy evil_trust] deploy_role)
                    (ResponseGetRbp.mk (document_for (self deploy_role) trust) true)
                    (snd (IAMRole._get_rbp
                            (run_calls sample_dumps
                                       [get_policy; set_policy evil_trust]
                                       deploy_role)))
                    eq_refl)).
  - exact (proj1 (flags_outlive_every_call
                    sample_dumps [get_policy; set_policy evil_trust; get_policy]
                    deploy_role)).
Defined.

(** C9, as the code has it: whatever [set_rbp] returns has the empty
    string as [evil_principal]; [set_rbp] is handed the policy only and
    records no principal. *)
Theorem set_rbp_evil_principal_is_blank
        (json_dumps : pyval -> string) (evil_policy : pyval)
        (h : heap IAMRole.t) (r : ResponseMessage.t) (h' : heap IAMRole.t) :
  IAMRole.set_rbp json_dumps evil_policy h = (Return r, h') ->
  ResponseMessage.evil_principal r = "".
Proof.
  rewrite set_rbp_run. cbv zeta.
  destruct (boto3.update_assume_role_policy _ _ _) as [response|error].
  - now intros [= <- _].
  - destruct (is_ClientError error); [|discriminate]. now intros [= <- _].
Qed.

Lemma set_rbp_evil_principal_is_blank_run :
  ResponseMessage.evil_principal
    (ResponseMessage.mk
       "success" "set_rbp" true ""
       "arn:aws:iam::111122223333:role/deploy-role" trust evil_trust
       "role" "deploy-role" "iam") = "".
Proof.
  exact (set_rbp_evil_principal_is_blank
           sample_dumps evil_trust deploy_role _
           (snd (IAMRole.set_rbp sample_dumps evil_trust deploy_role))
           eq_refl).
Defined.

(** C9 as the spec states it fails: the policy written for [deploy-role]
    grants the principal [evil-corp] in its second statement, and the
    record [set_rbp] returns does not name it. *)
Lemma set_rbp_does_not_name_the_evil_principal :
  PolicyDocument.statements_of evil_trust =
    PolicyDocument.statements_of trust
    ++ [PDict [("Effect", PStr "Allow");
               ("Principal", PDict [("AWS", PStr "evil-corp")]);
               ("Action", PStr "sts:AssumeRole")]] /\
  exists r,
    fst (IAMRole.set_rbp sample_dumps evil_trust deploy_role) = Return r /\
    ResponseMessage.updated_policy r = evil_trust /\
    ResponseMessage.evil_principal r <> "evil-corp".
Proof.
  split; [reflexivity|]. eexists. split; [reflexivity|].
  split; [reflexivity|]. cbn. discriminate.
Qed.

(* ===================================================================== *)
(** * Grant injection *)
(* ===================================================================== *)

(** C1: injecting a grant into a document of N statements gives a
    document of N+1 statements: the N original ones, unchanged and in
    their order, followed by the one new statement; the wire form lists
    them the same way. *)
Theorem inject_grant_is_additive
        (pd : PolicyDocument.t) (evil_principal arn : string) :
  length (PolicyDocument.statements
            (PolicyDocument.inject_grant pd evil_principal arn))
    = length (PolicyDocument.statements pd) + 1 /\
  PolicyDocument.statements (PolicyDocument.inject_grant pd evil_principal arn)
    = PolicyDocument.statements pd
      ++ [PolicyDocument.evil_statement pd evil_principal arn] /\
  firstn (length (PolicyDocument.statements pd))
         (PolicyDocument.statements
            (PolicyDocument.inject_grant pd evil_principal arn))
    = PolicyDocument.statements pd /\
  (forall i, i < length (PolicyDocument.statements pd) ->
             nth_error (PolicyDocument.statements
                          (PolicyDocument.inject_grant pd evil_principal arn)) i
             = nth_error (PolicyDocument.statements pd) i) /\
  nth_error (PolicyDocument.statements
               (PolicyDocument.inject_grant pd evil_principal arn))
            (length (PolicyDocument.statements pd))
    = Some (PolicyDocument.evil_statement pd evil_principal arn) /\
  PolicyDocument.statements_of
    (PolicyDocument.json (PolicyDocument.inject_grant pd evil_principal arn))
    = PolicyDocument.statements_of (PolicyDocument.json pd)
      ++ [PolicyDocument.evil_statement pd evil_principal arn].
Proof.
  cbn [PolicyDocument.inject_grant PolicyDocument.statements].
  repeat split.
  - now rewrite length_app.
  - now rewrite firstn_app, firstn_all, Nat.sub_diag, app_nil_r.
  - intros i Hi. now apply nth_error_app1.
  - rewrite nth_error_app2 by lia. now rewrite Nat.sub_diag.
Qed.

Lemma inject_grant_is_additive_run :
  length (PolicyDocument.statements
            (PolicyDocument.inject_grant
               (document_for (self deploy_role) trust) "evil-corp"
               (IAMRole.arn (self deploy_role)))) = 2 /\
  nth_error (PolicyDocument.statements
               (PolicyDocument.inject_grant
                  (document_for (self deploy_role) trust) "evil-corp"
                  (IAMRole.arn (self deploy_role)))) 0
    = nth_error (PolicyDocument.statements_of trust) 0.
Proof.
  pose proof (inject_grant_is_additive
                (document_for (self deploy_role) trust) "evil-corp"
                (IAMRole.arn (self deploy_role))) as (Hlen & _ & _ & Hnth & _).
  split; [exact Hlen|]. exact (Hnth 0 (le_n 1)).
Defined.

(** C2: the injected statement names the instance's arn in a resource
    block exactly when [include_resource_block] is true and has no
    resource block otherwise; [IAMRole] is constructed with
    [include_resource_block = False] and [override_action =
    "sts:AssumeRole"], so a grant injected into the document [_get_rbp]
    returns for a role has no resource block and the action
    [sts:AssumeRole]. *)
Theorem injected_statement_resource_block
        (pd : PolicyDocument.t) (evil_principal arn : string)
        (base : ResourceType.supplied) (name region : string)
        (client : boto3.client) (current_account_id : string)
        (lg : list logging.record) :
  PolicyDocument.resource_block
    (PolicyDocument.evil_statement pd evil_principal arn)
    = (if PolicyDocument.include_resource_block pd then Some (PStr arn) else None) /\
  ResourceType.include_resource_block
    (IAMRole.init base name region client current_account_id) = false /\
  ResourceType.override_action
    (IAMRole.init base name region client current_account_id)
    = Some "sts:AssumeRole" /\
  (forall r h',
      IAMRole._get_rbp
        (mkHeap (IAMRole.init base name region client current_account_id) lg)
        = (Return r, h') ->
      PolicyDocument.resource_block
        (PolicyDocument.evil_statement
           (ResponseGetRbp.policy_document r) evil_principal
           (IAMRole.arn (IAMRole.init base name region client current_account_id)))
        = None /\
      PolicyDocument.action
        (PolicyDocument.evil_statement
           (ResponseGetRbp.policy_document r) evil_principal
           (IAMRole.arn (IAMRole.init base name region client current_account_id)))
        = Some (PStr "sts:AssumeRole")).
Proof.
  split; [|split; [reflexivity|split; [reflexivity|]]].
  - unfold PolicyDocument.evil_statement, PolicyDocument.resource_block.
    destruct (PolicyDocument.include_resource_block pd); reflexivity.
  - intros r h' Hrun.
    destruct (get_rbp_document _ _ _ Hrun) as [policy ->]. now split.
Qed.

Lemma injected_statement_for_deploy_role :
  PolicyDocument.statements
    (PolicyDocument.inject_grant
       (document_for (self deploy_role) trust) "evil-corp"
       (IAMRole.arn (self deploy_role)))
    = PolicyDocument.statements_of trust
      ++ [PDict [("Effect", PStr "Allow");
                 ("Principal", PDict [("AWS", PStr "evil-corp")]);
                 ("Action", PStr "sts:AssumeRole")]] /\
  PolicyDocument.resource_block
    (PolicyDocument.evil_statement
       (document_for (self deploy_role) trust) "evil-corp"
       (IAMRole.arn (self deploy_role))) = None.
Proof.
  split; [reflexivity|].
  exact (proj1 (proj2 (proj2 (proj2
           (injected_statement_resource_block
              (document_for (self deploy_role) trust) "evil-corp"
              (IAMRole.arn (self deploy_role))
              no_defaults "deploy-role" "us-east-1" (provider []) "111122223333" [])))
           (ResponseGetRbp.mk (document_for (self deploy_role) trust) true)
           (snd (IAMRole._get_rbp deploy_role))
           eq_refl)).
Defined.

(** The scenario of the spec, with the override action [assume-role]: two
    statements, the second one without resource block. *)
Example scenario_assume_role :
  PolicyDocument.statements
    (PolicyDocument.inject_grant scenario_document "evil-corp"
                                 "arn:aws:iam::111122223333:role/deploy-role")
    = PolicyDocument.statements scenario_document
      ++ [PDict [("Effect", PStr "Allow");
                 ("Principal", PDict [("AWS", PStr "evil-corp")]);
                 ("Action", PStr "assume-role")]].
Proof. reflexivity. Qed.

(** With the resource block included, the statement names the arn. *)
Example resource_block_when_included :
  PolicyDocument.resource_block
    (PolicyDocument.evil_statement
       (PolicyDocument.init trust "s3" None true None false) "evil-corp"
       "arn:aws:s3:::bucket")
    = Some (PStr "arn:aws:s3:::bucket").
Proof. reflexivity. Qed.

(* ===================================================================== *)
(** * More on enumeration: pages of any shape *)
(* ===================================================================== *)

Lemma for_in_app {St A B} (body : A -> B -> M St B) (xs ys : list A) :
  forall acc s,
    for_in (xs ++ ys) body acc s = bind (for_in xs body acc) (for_in ys body) s.
Proof.
  induction xs as [|x xs IH]; intros acc s; [reflexivity|].
  cbn [app for_in]. unfold bind in *.
  destruct (body x acc s) as [[acc1|e] s1]; [apply IH|reflexivity].
Qed.

Lemma for_in_keeps_state {St A B} (body : A -> B -> M St B) :
  (forall x acc s, snd (body x acc s) = s) ->
  forall xs acc s, snd (for_in xs body acc s) = s.
Proof.
  intros Hbody xs. induction xs as [|x xs IH]; intros acc s; [reflexivity|].
  cbn [for_in]. unfold bind. specialize (Hbody x acc s).
  destruct (body x acc s) as [[acc1|e] s1]; cbn [snd] in Hbody; subst s1.
  - apply IH.
  - reflexivity.
Qed.


Lemma visit_role_keeps_state this role acc s :
  snd (IAMRoles.visit_role this role acc s) = s.
Proof.
  destruct (role_path role) as [p|] eqn:Hp.
  - now rewrite (visit_role_with_path this role p acc s Hp).
  - now rewrite (visit_role_without_path this role acc s Hp).
Qed.

Lemma visit_page_keeps_state this page acc s :
  snd (IAMRoles.visit_page this page acc s) = s.
Proof.
  unfold IAMRoles.visit_page, bind at 1, lift at 1.
  destruct (getitem page "Roles") as [roles|]; [|reflexivity].
  unfold bind at 1, lift at 1.
  destruct (Py.iter roles) as [roles_seq|]; [|reflexivity].
  apply for_in_keeps_state. apply visit_role_keeps_state.
Qed.

Lemma visit_page_entries this page l acc h :
  page_entries page = Return l ->
  forallb has_path l = true ->
  IAMRoles.visit_page this page acc h =
    (Return (acc ++ map (listed_as this) (kept l)), h).
Proof.
  unfold page_entries, IAMRoles.visit_page, bind at 1, lift at 1.
  destruct (getitem page "Roles") as [roles|]; [|discriminate].
  unfold bind at 1, lift at 1. intros -> Hp. now apply roles_loop.
Qed.

Lemma visit_page_raises this page e acc h :
  page_entries page = Raise e ->
  IAMRoles.visit_page this page acc h = (Raise e, h).
Proof.
  unfold page_entries, IAMRoles.visit_page, bind at 1, lift at 1.
  destruct (getitem page "Roles") as [roles|e0]; [|now intros [= ->]].
  unfold bind at 1, lift at 1. now intros ->.
Qed.



Lemma scan_loop this pages : forall acc h,
  scannable pages = true ->
  for_in pages (IAMRoles.visit_page this) acc h =
    (Return (acc ++ map (listed_as this) (kept (entries pages))), h).
Proof.
  induction pages as [|page pages IH]; intros acc h Hs;
    unfold scannable in *; cbn [for_in forallb] in *.
  - unfold ret. cbn. now rewrite app_nil_r.
  - apply andb_true_iff in Hs as [Hpg Hs].
    destruct (page_entries page) as [l|] eqn:Hl; [|discriminate].
    unfold bind. rewrite (visit_page_entries this page l acc h Hl Hpg), (IH _ _ Hs).
    unfold entries. cbn [flat_map]. rewrite Hl.
    now rewrite kept_app, map_app, app_assoc.
Qed.


Lemma scan_loop_stops this earlier page later e : forall acc h,
  scannable earlier = true ->
  page_entries page = Raise e ->
  for_in (earlier ++ page :: later) (IAMRoles.visit_page this) acc h =
    (Raise e, h).
Proof.
  intros acc h Hs Hp. rewrite for_in_app. unfold bind at 1.
  rewrite (scan_loop this earlier acc h Hs). cbn [for_in]. unfold bind.
  now rewrite (visit_page_raises this page e _ h Hp).
Qed.

(** X1: enumeration leaves the heap as it found it, whether it returns or
    raises: the catalog is not assigned to and nothing is logged. *)
Theorem resources_leaves_heap (h : heap IAMRoles.t) :
  snd (IAMRoles.resources h) = h.
Proof.
  change (IAMRoles.resources h)
    with (for_in (pages_of h) (IAMRoles.visit_page (self h)) [] h).
  apply for_in_keeps_state. apply visit_page_keeps_state.
Qed.



(** X3: after pages that scan, a page without the [Roles] key makes the
    scan raise [KeyError], and a page whose [Roles] is null, a boolean or
    a number makes it raise [TypeError]; the records gathered so far are
    not returned. *)
Theorem resources_on_misshapen_page
        (h : heap IAMRoles.t) (earlier : list pyval) (d : list (string * pyval))
        (later : list pyval) :
  pages_of h = earlier ++ PDict d :: later ->
  scannable earlier = true ->
  (lookup "Roles" d = None ->
   IAMRoles.resources h = (Raise KeyError, h)) /\
  (forall roles,
      lookup "Roles" d = Some roles ->
      match roles with
      | PNone | PBool _ | PInt _ => True
      | _ => False
      end ->
      IAMRoles.resources h = (Raise TypeError, h)).
Proof.
  intros Hpages Hs.
  change (IAMRoles.resources h)
    with (for_in (pages_of h) (IAMRoles.visit_page (self h)) [] h).
  rewrite Hpages. split.
  - intros Hd. apply scan_loop_stops; [exact Hs|].
    unfold page_entries, getitem. now rewrite Hd.
  - intros roles Hd Hroles. apply scan_loop_stops; [exact Hs|].
    unfold page_entries, getitem. rewrite Hd.
    destruct roles; try contradiction; reflexivity.
Qed.

Lemma resources_on_misshapen_page_runs :
  IAMRoles.resources scan_no_roles_key = (Raise KeyError, scan_no_roles_key) /\
  IAMRoles.resources scan_null_roles = (Raise TypeError, scan_null_roles).
Proof.
  split.
  - exact (proj1 (resources_on_misshapen_page
                    scan_no_roles_key [page_of [plain] true]
                    [("IsTruncated", PBool false)] [] eq_refl eq_refl)
                 eq_refl).
  - exact (proj2 (resources_on_misshapen_page
                    scan_null_roles [page_of [plain] true]
                    [("Roles", PNone)] [] eq_refl eq_refl)
                 PNone eq_refl I).
Defined.

Lemma kept_nil_iff roles :
  kept roles = [] <-> forallb service_linked roles = true.
Proof.
  induction roles as [|role roles IH]; [now split|].
  unfold kept in *. cbn [filter forallb].
  destruct (service_linked role); cbn [negb andb]; [exact IH|].
  split; discriminate.
Qed.

(** X4: every record a catalog returns carries the service [iam] and the
    resource type [role], whatever the listed entry says. *)
Theorem resources_service_and_kind
        (client : boto3.client) (current_account_id region : string)
        (lg : list logging.record)
        (out : list ListResourcesResponse.t) (h' : heap IAMRoles.t) :
  IAMRoles.resources (mkHeap (IAMRoles.init client current_account_id region) lg)
    = (Return out, h') ->
  Forall (fun r => ListResourcesResponse.service r = "iam" /\
                   ListResourcesResponse.resource_type r = "role") out.
Proof.
  intros Hrun. apply resources_issues in Hrun.
  eapply Forall_impl; [|exact Hrun]. cbn beta. intros r [role ->]. now split.
Qed.

Lemma resources_service_and_kind_run :
  Forall (fun r => ListResourcesResponse.service r = "iam" /\
                   ListResourcesResponse.resource_type r = "role")
         [listed_as (self scan_two_pages) plain;
          listed_as (self scan_two_pages) foreign].
Proof.
  exact (resources_service_and_kind
           (provider [page_of [plain; elasticache_linked] true;
                      page_of [foreign] false])
           "111122223333" "us-east-1" [] _ scan_two_pages eq_refl).
Defined.

(** X5: the filter is the prefix [/aws-service-role/] alone: an entry
    whose path begins with [/service-role/] is listed, between the records
    of what stands before and after it. *)
Theorem resources_lists_service_role_path
        (h : heap IAMRoles.t) (before : list pyval) (role : pyval)
        (after : list pyval) (rest : string) :
  scannable (pages_of h) = true ->
  entries (pages_of h) = before ++ role :: after ->
  role_path role = Some ("/service-role/" ++ rest)%string ->
  IAMRoles.resources h =
    (Return (map (listed_as (self h)) (kept before)
             ++ listed_as (self h) role
             :: map (listed_as (self h)) (kept after)), h).
Proof.
  intros Hs He Hp.
  change (IAMRoles.resources h)
    with (for_in (pages_of h) (IAMRoles.visit_page (self h)) [] h).
  rewrite (scan_loop (self h) (pages_of h) [] h Hs).
  cbn [app]. rewrite He.
  change (role :: after) with ([role] ++ after).
  rewrite !kept_app, !map_app. do 3 f_equal.
  unfold kept, service_linked. cbn [filter]. now rewrite Hp.
Qed.

Lemma resources_lists_service_role_path_run :
  IAMRoles.resources scan_service_role =
    (Return [listed_as (self scan_service_role) plain;
             ListResourcesResponse.mk
               "iam" "111122223333"
               (PStr "arn:aws:iam::111122223333:role/service-role/lambda-exec")
               "us-east-1" "role" (PStr "lambda-exec")],
     scan_service_role).
Proof.
  exact (resources_lists_service_role_path
           scan_service_role [plain] service_role [] ""
           eq_refl eq_refl eq_refl).
Defined.

(** X6: a scan that returns gives the empty list exactly when every
    element met is service-linked; in particular over no page at all. *)
Theorem resources_empty_iff_all_service_linked (h : heap IAMRoles.t) :
  scannable (pages_of h) = true ->
  (fst (IAMRoles.resources h) = Return []
   <-> forallb service_linked (entries (pages_of h)) = true).
Proof.
  intros Hs.
  change (IAMRoles.resources h)
    with (for_in (pages_of h) (IAMRoles.visit_page (self h)) [] h).
  rewrite (scan_loop (self h) (pages_of h) [] h Hs). cbn [fst app].
  rewrite <- kept_nil_iff. split.
  - intros [= H]. now destruct (kept (entries (pages_of h))).
  - now intros ->.
Qed.

Lemma resources_empty_iff_all_service_linked_run :
  fst (IAMRoles.resources scan_only_linked) = Return [].
Proof.
  exact (proj2 (resources_empty_iff_all_service_linked scan_only_linked eq_refl)
               eq_refl).
Defined.

(* ===================================================================== *)
(** * More on one role *)
(* ===================================================================== *)

Lemma append_cancel_l (p x y : string) : (p ++ x = p ++ y)%string -> x = y.
Proof.
  induction p as [|c p IH]; cbn; [trivial|]. intros [= H]. now apply IH.
Qed.

Lemma split_at_colon (a1 a2 r1 r2 : string) :
  no_colon a1 = true -> no_colon a2 = true ->
  (a1 ++ String ":" r1 = a2 ++ String ":" r2)%string ->
  a1 = a2 /\ r1 = r2.
Proof.
  revert a2. induction a1 as [|c1 a1 IH]; intros [|c2 a2]; cbn.
  - intros _ _ [= ->]. now split.
  - intros _ H [= <- _]. discriminate H.
  - intros H _ [= -> _]. discriminate H.
  - intros H1 H2 [= -> Heq].
    apply andb_true_iff in H1 as [_ H1]. apply andb_true_iff in H2 as [_ H2].
    destruct (IH a2 H1 H2 Heq) as [-> ->]. now split.
Qed.

Lemma py_get_raises v k e : Py.get v k = Raise e -> e = AttributeError.
Proof. destruct v; cbn; try discriminate; now intros [= <-]. Qed.

(** X7: the arn of a constructed role is
    [arn:aws:iam::<account>:role/<name>]: it carries no region, and for
    account ids without a colon two roles have the same arn only if they
    have the same account and the same name. *)
Theorem arn_names_account_and_role
        (base1 base2 : ResourceType.supplied) (name1 name2 region1 region2 : string)
        (client1 client2 : boto3.client) (account1 account2 : string) :
  IAMRole.arn (IAMRole.init base1 name1 region1 client1 account1)
    = ("arn:aws:iam::" ++ account1 ++ ":role/" ++ name1)%string /\
  IAMRole.arn (IAMRole.init base1 name1 region1 client1 account1)
    = IAMRole.arn (IAMRole.init base2 name1 region2 client2 account1) /\
  (no_colon account1 = true ->
   no_colon account2 = true ->
   IAMRole.arn (IAMRole.init base1 name1 region1 client1 account1)
     = IAMRole.arn (IAMRole.init base2 name2 region2 client2 account2) ->
   account1 = account2 /\ name1 = name2).
Proof.
  split; [reflexivity|]. split; [reflexivity|].
  intros H1 H2 Heq.
  apply (append_cancel_l "arn:aws:iam::") in Heq.
  destruct (split_at_colon _ _ _ _ H1 H2 Heq) as [-> Hn].
  split; [reflexivity|]. now apply (append_cancel_l "role/") in Hn.
Qed.

Lemma arn_names_account_and_role_run :
  "111122223333" = "111122223333" /\ "deploy-role" = "deploy-role".
Proof.
  exact (proj2 (proj2 (arn_names_account_and_role
                         no_defaults no_defaults "deploy-role" "deploy-role"
                         "us-east-1" "eu-west-1" (provider []) unreachable
                         "111122223333" "111122223333"))
               eq_refl eq_refl eq_refl).
Defined.

(** Without the condition on account ids two different roles can share an
    arn. *)
Example arn_collision_with_colon :
  IAMRole.arn (IAMRole.init no_defaults "y" "us-east-1" unreachable "1:role/x")
    = IAMRole.arn (IAMRole.init no_defaults "x:role/y" "us-east-1" unreachable "1").
Proof. reflexivity. Qed.

(** X8: when the provider answers [get_role] with an object whose [Role]
    is an object, [_get_rbp] returns [success = True] with the document
    of the role's [AssumeRolePolicyDocument], or of [None] when the role
    carries none, and logs the debug record only. *)
Theorem get_rbp_reads_trust_policy
        (h : heap IAMRole.t) (d rd : list (string * pyval)) :
  boto3.get_role (ResourceType.client (self h)) (ResourceType.name (self h))
    = Return (PDict d) ->
  lookup "Role" d = Some (PDict rd) ->
  IAMRole._get_rbp h =
    (Return (ResponseGetRbp.mk
               (document_for (self h)
                  (match lookup "AssumeRolePolicyDocument" rd with
                   | Some policy => policy
                   | None => PNone
                   end))
               true),
     logged h [getting (self h)]).
Proof.
  intros Hget Hrole. rewrite get_rbp_run. cbv zeta. rewrite Hget.
  cbn [Py.get]. rewrite Hrole. reflexivity.
Qed.

Lemma get_rbp_reads_trust_policy_runs :
  fst (IAMRole._get_rbp deploy_role)
    = Return (ResponseGetRbp.mk (document_for (self deploy_role) trust) true) /\
  fst (IAMRole._get_rbp bare_role)
    = Return (ResponseGetRbp.mk (document_for (self bare_role) PNone) true).
Proof.
  split.
  - exact (f_equal fst
             (get_rbp_reads_trust_policy
                deploy_role
                [("Role", PDict [("RoleName", PStr "deploy-role");
                                 ("AssumeRolePolicyDocument", trust)])]
                [("RoleName", PStr "deploy-role");
                 ("AssumeRolePolicyDocument", trust)]
                eq_refl eq_refl)).
  - exact (f_equal fst
             (get_rbp_reads_trust_policy
                bare_role
                [("Role", PDict [("RoleName", PStr "deploy-role")])]
                [("RoleName", PStr "deploy-role")]
                eq_refl eq_refl)).
Defined.

(** X9: in what [_get_rbp] returns, [success] is true exactly when the
    provider answered [get_role], and false exactly when the provider
    raised a client error. *)
Theorem get_rbp_success_iff_provider_answered
        (h : heap IAMRole.t) (r : ResponseGetRbp.t) (h' : heap IAMRole.t) :
  IAMRole._get_rbp h = (Return r, h') ->
  (ResponseGetRbp.success r = true <->
   exists response,
     boto3.get_role (ResourceType.client (self h)) (ResourceType.name (self h))
       = Return response) /\
  (ResponseGetRbp.success r = false <->
   exists e,
     boto3.get_role (ResourceType.client (self h)) (ResourceType.name (self h))
       = Raise e /\ is_ClientError e = true).
Proof.
  rewrite get_rbp_run. cbv zeta.
  destruct (boto3.get_role _ _) as [response|e].
  - destruct (Py.get response "Role") as [role|]; [|discriminate].
    destruct (Py.get role _) as [policy|]; [|discriminate].
    intros [= <- _]. cbn [ResponseGetRbp.success]. split; split.
    + intros _. now exists response.
    + reflexivity.
    + intros H. discriminate H.
    + intros (e & He & _). discriminate He.
  - assert (Hce : is_NoSuchEntityException e = true -> is_ClientError e = true)
      by (now destruct e).
    destruct (is_NoSuchEntityException e) eqn:Hn;
      [|destruct (is_ClientError e) eqn:Hc; [|discriminate]];
      intros [= <- _]; cbn [ResponseGetRbp.success]; (split; split).
    + intros H. discriminate H.
    + intros (response & Hr). discriminate Hr.
    + intros _. exists e. split; [reflexivity|]. now apply Hce.
    + reflexivity.
    + intros H. discriminate H.
    + intros (response & Hr). discriminate Hr.
    + intros _. now exists e.
    + reflexivity.
Qed.

Lemma get_rbp_success_iff_provider_answered_run :
  exists e,
    boto3.get_role (ResourceType.client (self vanished_role))
                   (ResourceType.name (self vanished_role)) = Raise e /\
    is_ClientError e = true.
Proof.
  exact (proj1 (proj2 (get_rbp_success_iff_provider_answered
                         vanished_role
                         (ResponseGetRbp.mk
                            (document_for (self vanished_role)
                                          constants.get_empty_policy) false)
                         (snd (IAMRole._get_rbp vanished_role)) eq_refl))
               eq_refl).
Defined.

(** X10: an exception leaves [_get_rbp] only with the debug record logged,
    and it is never a client error: it is the exception the provider
    raised, or [AttributeError] for an answer that is not an object with
    an object under [Role]. *)
Theorem get_rbp_never_raises_client_error
        (h : heap IAMRole.t) (e : exn) (h' : heap IAMRole.t) :
  IAMRole._get_rbp h = (Raise e, h') ->
  is_ClientError e = false /\
  h' = logged h [getting (self h)] /\
  (boto3.get_role (ResourceType.client (self h)) (ResourceType.name (self h))
     = Raise e \/
   (e = AttributeError /\
    exists response,
      boto3.get_role (ResourceType.client (self h)) (ResourceType.name (self h))
        = Return response)).
Proof.
  rewrite get_rbp_run. cbv zeta.
  destruct (boto3.get_role _ _) as [response|e0].
  - destruct (Py.get response "Role") as [role|e1] eqn:H1.
    + destruct (Py.get role _) as [policy|e2] eqn:H2; [discriminate|].
      intros [= <- <-]. apply py_get_raises in H2 as ->.
      split; [reflexivity|]. split; [reflexivity|]. right. split; [reflexivity|].
      now exists response.
    + intros [= <- <-]. apply py_get_raises in H1 as ->.
      split; [reflexivity|]. split; [reflexivity|]. right. split; [reflexivity|].
      now exists response.
  - destruct (is_NoSuchEntityException e0); [discriminate|].
    destruct (is_ClientError e0) eqn:Hc; [discriminate|].
    intros [= <- <-]. split; [exact Hc|]. split; [reflexivity|]. now left.
Qed.

Lemma get_rbp_never_raises_client_error_run :
  is_ClientError (OtherException "Could not connect to the endpoint URL") = false /\
  snd (IAMRole._get_rbp offline_role) = logged offline_role [getting (self offline_role)].
Proof.
  destruct (get_rbp_never_raises_client_error
              offline_role (OtherException "Could not connect to the endpoint URL")
              (snd (IAMRole._get_rbp offline_role)) eq_refl) as (Hc & Hlog & _).
  split; [exact Hc|exact Hlog].
Defined.

(** X11: [_get_rbp] lets through what it does not handle: an exception of
    the provider that is not a client error leaves unchanged, and an
    answer without the [Role] key makes it raise [AttributeError]; in both
    cases only the debug record is logged. *)
Theorem get_rbp_propagates (h : heap IAMRole.t) :
  (forall e,
      boto3.get_role (ResourceType.client (self h)) (ResourceType.name (self h))
        = Raise e ->
      is_ClientError e = false ->
      IAMRole._get_rbp h = (Raise e, logged h [getting (self h)])) /\
  (forall d,
      boto3.get_role (ResourceType.client (self h)) (ResourceType.name (self h))
        = Return (PDict d) ->
      lookup "Role" d = None ->
      IAMRole._get_rbp h = (Raise AttributeError, logged h [getting (self h)])).
Proof.
  split.
  - intros e Hget Hc. rewrite get_rbp_run. cbv zeta. rewrite Hget, Hc.
    now destruct e.
  - intros d Hget Hd. rewrite get_rbp_run. cbv zeta. rewrite Hget.
    cbn [Py.get]. now rewrite Hd.
Qed.

Lemma get_rbp_propagates_run :
  IAMRole._get_rbp offline_role =
    (Raise (OtherException "Could not connect to the endpoint URL"),
     logged offline_role [getting (self offline_role)]).
Proof.
  exact (proj1 (get_rbp_propagates offline_role)
               (OtherException "Could not connect to the endpoint URL")
               eq_refl eq_refl).
Defined.

(** X12: an exception leaves [set_rbp] exactly when the provider raised it
    on the write and it is not a client error; only the debug record is
    logged then. *)
Theorem set_rbp_raises_iff
        (json_dumps : pyval -> string) (evil_policy : pyval)
        (h : heap IAMRole.t) (e : exn) (h' : heap IAMRole.t) :
  IAMRole.set_rbp json_dumps evil_policy h = (Raise e, h') <->
  boto3.update_assume_role_policy
    (ResourceType.client (self h)) (ResourceType.name (self h))
    (json_dumps evil_policy) = Raise e /\
  is_ClientError e = false /\
  h' = logged h [setting (self h)].
Proof.
  rewrite set_rbp_run. cbv zeta.
  destruct (boto3.update_assume_role_policy _ _ _) as [response|e0].
  - split; [discriminate|]. intros (H & _). discriminate H.
  - destruct (is_ClientError e0) eqn:Hc; split.
    + discriminate.
    + intros ([= <-] & Hc' & _). rewrite Hc in Hc'. discriminate Hc'.
    + intros [= <- <-]. now repeat split.
    + intros ([= <-] & _ & ->). reflexivity.
Qed.

Lemma set_rbp_raises_iff_run :
  IAMRole.set_rbp sample_dumps evil_trust offline_role =
    (Raise (OtherException "Could not connect to the endpoint URL"),
     logged offline_role [setting (self offline_role)]).
Proof.
  exact (proj2 (set_rbp_raises_iff
                  sample_dumps evil_trust offline_role
                  (OtherException "Could not connect to the endpoint URL")
                  (logged offline_role [setting (self offline_role)]))
               (conj eq_refl (conj eq_refl eq_refl))).
Defined.

(** X13: what [set_rbp] logs agrees with what it reports: after the debug
    record it logs one critical record, carrying the reported message,
    exactly when the record it returns has [success = False]; and
    [success] is true exactly when the provider accepted the write. *)
Theorem set_rbp_logs_what_it_reports
        (json_dumps : pyval -> string) (evil_policy : pyval)
        (h : heap IAMRole.t) (r : ResponseMessage.t) (h' : heap IAMRole.t) :
  IAMRole.set_rbp json_dumps evil_policy h = (Return r, h') ->
  h' = logged h (setting (self h)
                 :: (if ResponseMessage.success r then []
                     else [(logging.CRITICAL, ResponseMessage.message r)])) /\
  (ResponseMessage.success r = true <->
   exists response,
     boto3.update_assume_role_policy
       (ResourceType.client (self h)) (ResourceType.name (self h))
       (json_dumps evil_policy) = Return response) /\
  (ResponseMessage.success r = true -> ResponseMessage.message r = "success").
Proof.
  rewrite set_rbp_run. cbv zeta.
  destruct (boto3.update_assume_role_policy _ _ _) as [response|e].
  - intros [= <- <-]. cbn [ResponseMessage.success ResponseMessage.message].
    split; [reflexivity|]. split; [|reflexivity].
    split; [intros _; now exists response|reflexivity].
  - destruct (is_ClientError e); [|discriminate].
    intros [= <- <-]. cbn [ResponseMessage.success ResponseMessage.message].
    split.
    + unfold logged; cbn [self log]. now rewrite <- app_assoc.
    + split; [|intros H; discriminate H].
      split; [intros H; discriminate H|intros (response & H); discriminate H].
Qed.

Lemma set_rbp_logs_what_it_reports_run :
  log (snd (IAMRole.set_rbp sample_dumps evil_trust vanished_role)) =
    [setting (self vanished_role);
     (logging.CRITICAL,
      "An error occurred (MalformedPolicyDocument) when calling the UpdateAssumeRolePolicy operation: Invalid principal in policy")].
Proof.
  exact (f_equal log
           (proj1 (set_rbp_logs_what_it_reports
                     sample_dumps evil_trust vanished_role
                     (ResponseMessage.mk
                        "An error occurred (MalformedPolicyDocument) when calling the UpdateAssumeRolePolicy operation: Invalid principal in policy"
                        "set_rbp" false ""
                        "arn:aws:iam::111122223333:role/gone" trust evil_trust
                        "role" "gone" "iam")
                     (snd (IAMRole.set_rbp sample_dumps evil_trust vanished_role))
                     eq_refl))).
Defined.

Lemma call_appends_to_log json_dumps (c : call) (h : heap IAMRole.t) :
  exists more,
    log (run_call json_dumps c h) = log h ++ more /\
    1 <= length more <= 2.
Proof.
  destruct c as [|evil_policy]; unfold run_call.
  - rewrite get_rbp_run. cbv zeta.
    destruct (boto3.get_role _ _) as [response|e].
    + destruct (Py.get response "Role") as [role|];
        [destruct (Py.get role _)|];
        (eexists; split; [reflexivity|cbn; lia]).
    + destruct (is_NoSuchEntityException e); [|destruct (is_ClientError e)];
        unfold logged; cbn [snd log self]; rewrite <- ?app_assoc;
        (eexists; split; [reflexivity|cbn; lia]).
  - rewrite set_rbp_run. cbv zeta.
    destruct (boto3.update_assume_role_policy _ _ _) as [response|e].
    + eexists; split; [reflexivity|cbn; lia].
    + destruct (is_ClientError e);
        unfold logged; cbn [snd log self]; rewrite <- ?app_assoc;
        (eexists; split; [reflexivity|cbn; lia]).
Qed.

(** X14: calls on a role only add to the log: after any sequence of
    [get_policy] and [set_policy] calls the records logged before are
    still there, in order, followed by at least one and at most two new
    records per call. *)
Theorem calls_only_append_to_log
        (json_dumps : pyval -> string) (calls : list call) (h : heap IAMRole.t) :
  exists more,
    log (run_calls json_dumps calls h) = log h ++ more /\
    length calls <= length more <= 2 * length calls.
Proof.
  revert h. induction calls as [|c calls IH]; intros h.
  - exists []. cbn. rewrite app_nil_r. split; [reflexivity|lia].
  - change (run_calls json_dumps (c :: calls) h)
      with (run_calls json_dumps calls (run_call json_dumps c h)).
    destruct (IH (run_call json_dumps c h)) as (more & Hlog & Hlen).
    destruct (call_appends_to_log json_dumps c h) as (first & Hfirst & Hone).
    exists (first ++ more). rewrite Hlog, Hfirst, <- app_assoc.
    split; [reflexivity|]. rewrite length_app. cbn [length]. lia.
Qed.
